(** * The Property REST controller (server/api/property/property.controller.js)

    A shallow embedding of the six request handlers and their five helpers.
    The promise chains of the source are run sequentially over an explicit
    world: the backing store, the trace of calls made to the collaborators
    (the [Property] model and [jsonpatch]) and the writes made to the
    response object [res]. The handlers are given twice: over a response
    that records every write asked of it, and, in [Express], over a response
    that refuses what comes after it has ended. *)

From Stdlib Require Import Floats.PrimFloat ZArith Ascii String.
From stdpp Require Import base strings list gmap pretty.

Local Open Scope Z_scope.
Local Open Scope string_scope.
Local Open Scope list_scope.
Set Warnings "-register-all".

(** ** JSON documents: request bodies and entity attributes *)

Inductive json : Type :=
| JNull
| JBool (b : bool)
| JNum (n : float)
| JStr (s : string)
| JArr (items : list json)
| JObj (members : list (string * json)).

(** The attribute set of one Property row, in column order. *)
Definition entity : Type := list (string * json).

Fixpoint get_field (k : string) (fs : list (string * json)) : option json :=
  match fs with
  | [] => None
  | (k', v) :: rest => if String.eqb k k' then Some v else get_field k rest
  end.

Fixpoint delete_field (k : string) (fs : list (string * json)) : list (string * json) :=
  match fs with
  | [] => []
  | (k', v) :: rest =>
      if String.eqb k k' then delete_field k rest else (k', v) :: delete_field k rest
  end.

Definition set_field (k : string) (v : json) (fs : list (string * json)) : list (string * json) :=
  match get_field k fs with
  | Some _ => map (fun kv => if String.eqb k (fst kv) then (k, v) else kv) fs
  | None => fs ++ [(k, v)]
  end.

(** ** Values carried by the promise chains *)

Inductive value : Type :=
| VUndefined
| VNull
| VBool (b : bool)
| VInstance (e : entity)          (* a Property instance and its dataValues *)
| VArray (es : list entity)       (* the instances resolved by findAll *)
| VError (name message : string)  (* an Error object *)
| VRes.                           (* the response object, as returned by res.json *)

Definition TypeError (message : string) : value := VError "TypeError" message.

(** ECMAScript ToBoolean on a JSON value: [null], [false], [0], [-0], [NaN]
    and the empty string are falsy, every array and object is truthy. *)
Definition json_truthy (j : json) : bool :=
  match j with
  | JNull => false
  | JBool b => b
  | JNum n => negb (PrimFloat.is_zero n || PrimFloat.is_nan n)
  | JStr s => negb (String.eqb s "")
  | JArr _ => true
  | JObj _ => true
  end.

(** ToBoolean on the result of a property read; [None] is [undefined]. *)
Definition member_truthy (m : option json) : bool :=
  match m with
  | Some j => json_truthy j
  | None => false
  end.

(** ToBoolean on a chain value. *)
Definition truthy (v : value) : bool :=
  match v with
  | VUndefined => false
  | VNull => false
  | VBool b => b
  | VInstance _ => true
  | VArray _ => true
  | VError _ _ => true
  | VRes => true
  end.

(** A synchronous evaluation either completes normally or throws. *)
Inductive completion (A : Type) : Type :=
| Normal (a : A)
| Throw (e : value).
Arguments Normal {A} a.
Arguments Throw {A} e.

(** [req.body.id]: reading a property of [null] throws; an object yields its
    own member or [undefined]; arrays and primitives have no [id]. *)
Definition body_id (body : json) : completion (option json) :=
  match body with
  | JNull => Throw (TypeError "Cannot read property 'id' of null")
  | JObj members => Normal (get_field "id" members)
  | _ => Normal None
  end.

(** [Reflect.deleteProperty(req.body, 'id')]: removes the own member from an
    object, leaves an array as it is, and throws on a target that is not an
    object. *)
Definition Reflect_deleteProperty_id (body : json) : completion json :=
  match body with
  | JObj members => Normal (JObj (delete_field "id" members))
  | JArr items => Normal (JArr items)
  | _ => Throw (TypeError "Reflect.deleteProperty called on non-object")
  end.

(** ** The response object *)

Inductive payload : Type :=
| NoBody                 (* res.end() *)
| Json (v : value)       (* res.json(v) *)
| Sent (v : value).      (* res.send(v) *)

Record write : Type := Write { w_status : Z; w_payload : payload }.

(** ** Calls made to the collaborators, with the error each one raised *)

Inductive call : Type :=
| FindAll
| Find (id : string)
| Create (body : json)
| Upsert (body : json) (id : string)
| Save (e : entity)
| Destroy (e : entity)
| JsonPatchApply (document : value) (patches : json) (validate : bool).

Record event : Type := Event { ev_call : call; ev_error : option value }.

Definition is_data_access (c : call) : bool :=
  match c with
  | JsonPatchApply _ _ _ => false
  | _ => true
  end.

(** ** Settled promises *)

Inductive settled (A : Type) : Type :=
| Resolved (a : A)
| Rejected (e : value).
Arguments Resolved {A} a.
Arguments Rejected {A} e.

Definition settled_error {A} (s : settled A) : option value :=
  match s with
  | Resolved _ => None
  | Rejected e => Some e
  end.

Definition settled_map {A B} (f : A -> B) (s : settled A) : settled B :=
  match s with
  | Resolved a => Resolved (f a)
  | Rejected e => Rejected e
  end.

(** ** The collaborators *)

(** The [Property] model imported from [../../sqldb]: each call settles and
    may change the store. *)
Class DataAccess (store : Type) : Type := {
  Property_findAll : store -> settled (list entity) * store;
  Property_find : string -> store -> settled (option entity) * store;
  Property_create : json -> store -> settled entity * store;
  Property_upsert : json -> string -> store -> settled value * store;
  entity_save : entity -> store -> settled entity * store;
  entity_destroy : entity -> store -> settled unit * store
}.

(** [jsonpatch.apply(document, patches, validate)] from fast-json-patch: it
    throws, or returns after mutating the document in place; [Mutated e]
    carries the attributes the document has afterwards. *)
Inductive patch_result : Type :=
| PatchThrows (err : value)
| Mutated (e : entity).

Class JsonPatch : Type := {
  jsonpatch_apply : value -> json -> bool -> patch_result
}.

Definition patch_error (r : patch_result) : option value :=
  match r with
  | PatchThrows err => Some err
  | Mutated _ => None
  end.

(** ** The world a request runs in *)

Record world (store : Type) : Type := World {
  db : store;                (* the backing store *)
  trace : list event;        (* collaborator calls made so far, oldest first *)
  statusCode : Z;            (* res.statusCode *)
  sent : list write          (* responses written so far, oldest first *)
}.
Arguments World {store} db trace statusCode sent.
Arguments db {store} w.
Arguments trace {store} w.
Arguments statusCode {store} w.
Arguments sent {store} w.

(** The world at the arrival of a request: nothing called, nothing written,
    and the status code Express starts with. *)
Definition arrival {store} (d : store) : world store := World d [] 200 [].

Section Controller.
Context {store : Type} `{DA : DataAccess store} `{JP : JsonPatch}.

Abbreviation world := (world store).

(** A promise, run to settlement. *)
Definition promise : Type := world -> settled value * world.

(** A callback given to [then] or [catch]: it returns a value, throws, or
    returns a promise, which the chain adopts. *)
Definition callback : Type := value -> promise.

Definition then_ (p : promise) (onFulfilled : callback) : promise :=
  fun w =>
    match p w with
    | (Resolved v, w') => onFulfilled v w'
    | (Rejected e, w') => (Rejected e, w')
    end.

Definition catch_ (p : promise) (onRejected : callback) : promise :=
  fun w =>
    match p w with
    | (Resolved v, w') => (Resolved v, w')
    | (Rejected e, w') => onRejected e w'
    end.

(** *** Methods of [res], as a recorder

    This response accepts whatever it is given: every terminal call the
    chain makes ([json], [send], [end]) is appended to [sent], so [sent] is
    the list of responses the code asks for. What Express does with a call
    that comes after the response has ended is in [Express] below. *)

Definition res_status (code : Z) (w : world) : world :=
  World (db w) (trace w) code (sent w).

Definition res_write (p : payload) (w : world) : world :=
  World (db w) (trace w) (statusCode w) (sent w ++ [Write (statusCode w) p]).

Definition res_json (v : value) : world -> world := res_write (Json v).
Definition res_send (v : value) : world -> world := res_write (Sent v).
Definition res_end : world -> world := res_write NoBody.

(** *** Calls to the collaborators, recorded in the trace *)

Definition record {A} (c : call) (toValue : A -> value)
    (run : store -> settled A * store) : promise :=
  fun w =>
    let (r, d) := run (db w) in
    (settled_map toValue r,
     World d (trace w ++ [Event c (settled_error r)]) (statusCode w) (sent w)).

Definition of_found (o : option entity) : value :=
  match o with
  | Some e => VInstance e
  | None => VNull
  end.

Definition call_findAll : promise :=
  record FindAll VArray Property_findAll.
Definition call_find (id : string) : promise :=
  record (Find id) of_found (Property_find id).
Definition call_create (body : json) : promise :=
  record (Create body) VInstance (Property_create body).
Definition call_upsert (body : json) (id : string) : promise :=
  record (Upsert body id) (fun v => v) (Property_upsert body id).

(** [entity.save()] and [entity.destroy()]: only an instance has the
    methods; the call throws on anything else. *)
Definition method_save (receiver : value) : promise :=
  match receiver with
  | VInstance e => record (Save e) VInstance (entity_save e)
  | VNull | VUndefined =>
      fun w => (Rejected (TypeError "Cannot read property 'save' of null"), w)
  | _ => fun w => (Rejected (TypeError "entity.save is not a function"), w)
  end.

Definition method_destroy (receiver : value) : promise :=
  match receiver with
  | VInstance e => record (Destroy e) (fun _ => VUndefined) (entity_destroy e)
  | VNull | VUndefined =>
      fun w => (Rejected (TypeError "Cannot read property 'destroy' of null"), w)
  | _ => fun w => (Rejected (TypeError "entity.destroy is not a function"), w)
  end.

Definition call_jsonpatch (document : value) (patches : json) (validate : bool)
    (w : world) : patch_result * world :=
  let r := jsonpatch_apply document patches validate in
  (r, World (db w)
            (trace w ++ [Event (JsonPatchApply document patches validate) (patch_error r)])
            (statusCode w) (sent w)).

(** [statusCode = statusCode || dflt]; [None] is an omitted argument. *)
Definition or_default (statusCode : option Z) (dflt : Z) : Z :=
  match statusCode with
  | Some c => if (c =? 0)%Z then dflt else c
  | None => dflt
  end.

(** *** The helpers *)

(** [if(entity) { return res.status(statusCode).json(entity); } return null;] *)
Definition respondWithResult (statusCode : option Z) : callback :=
  let statusCode := or_default statusCode 200 in
  fun entity w =>
    if truthy entity
    then (Resolved VRes, res_json entity (res_status statusCode w))
    else (Resolved VNull, w).

(** [jsonpatch.apply(entity, patches, true)] runs inside try/catch, and what
    it throws becomes a rejection. Otherwise [entity.save()] is called on the
    same reference: an instance carries the mutated attributes by then, and
    null is still null. There is no test of [entity]. *)
Definition patchUpdates (patches : json) : callback :=
  fun entity w =>
    match call_jsonpatch entity patches true w with
    | (PatchThrows err, w') => (Rejected err, w')
    | (Mutated e', w') =>
        match entity with
        | VInstance _ => method_save (VInstance e') w'
        | _ => method_save entity w'
        end
    end.

(** [if(entity) { return entity.destroy().then(() => { res.status(204).end(); }); }] *)
Definition removeEntity : callback :=
  fun entity w =>
    if truthy entity
    then then_ (method_destroy entity)
               (fun _ w' => (Resolved VUndefined, res_end (res_status 204 w'))) w
    else (Resolved VUndefined, w).

(** [if(!entity) { res.status(404).end(); return null; } return entity;] *)
Definition handleEntityNotFound : callback :=
  fun entity w =>
    if negb (truthy entity)
    then (Resolved VNull, res_end (res_status 404 w))
    else (Resolved entity, w).

(** [res.status(statusCode).send(err);] *)
Definition handleError (statusCode : option Z) : callback :=
  let statusCode := or_default statusCode 500 in
  fun err w => (Resolved VUndefined, res_send err (res_status statusCode w)).

(** *** The handlers *)

Record request : Type := Request { params_id : string; body : json }.

(** What a handler hands back: the promise it returns, settled, unless it
    throws before building one. *)
Definition handler : Type := request -> world -> completion (settled value) * world.

Definition returned (p : promise) (w : world) : completion (settled value) * world :=
  let (r, w') := p w in (Normal r, w').

(* Gets a list of Properties *)
Definition index : handler :=
  fun req =>
    returned
      (catch_ (then_ call_findAll (respondWithResult None)) (handleError None)).

(* Gets a single Property from the DB *)
Definition show : handler :=
  fun req =>
    returned
      (catch_
         (then_ (then_ (call_find (params_id req)) handleEntityNotFound)
                (respondWithResult None))
         (handleError None)).

(* Creates a new Property in the DB *)
Definition create : handler :=
  fun req =>
    returned
      (catch_ (then_ (call_create (body req)) (respondWithResult (Some 201)))
              (handleError None)).

(** The prologue shared by [upsert] and [patch]:
    [if(req.body.id) { Reflect.deleteProperty(req.body, 'id'); }]
    It yields [req.body] as the rest of the handler sees it. *)
Definition strip_id (body : json) : completion json :=
  match body_id body with
  | Throw e => Throw e
  | Normal id =>
      if member_truthy id then Reflect_deleteProperty_id body else Normal body
  end.

(* Upserts the given Property in the DB at the specified ID *)
Definition upsert : handler :=
  fun req w =>
    match strip_id (body req) with
    | Throw e => (Throw e, w)
    | Normal body' =>
        returned
          (catch_ (then_ (call_upsert body' (params_id req)) (respondWithResult None))
                  (handleError None)) w
    end.

(* Updates an existing Property in the DB *)
Definition patch : handler :=
  fun req w =>
    match strip_id (body req) with
    | Throw e => (Throw e, w)
    | Normal body' =>
        returned
          (catch_
             (then_ (then_ (then_ (call_find (params_id req)) handleEntityNotFound)
                           (patchUpdates body'))
                    (respondWithResult None))
             (handleError None)) w
    end.

(* Deletes a Property from the DB *)
Definition destroy : handler :=
  fun req =>
    returned
      (catch_
         (then_ (then_ (call_find (params_id req)) handleEntityNotFound) removeEntity)
         (handleError None)).

(** The six operations the router binds. *)
Definition handlers : list handler := [index; show; create; upsert; patch; destroy].

End Controller.

(** The claim that upsert never hands a body with an [id] member to the
    store, as a predicate on the calls a request made. *)
Definition upserts_without_id (t : list event) : Prop :=
  ∀ b id err, Event (Upsert b id) err ∈ t → body_id b = Normal None.

(** The status codes of the responses written, oldest first. *)
Definition statuses {store} (w : world store) : list Z := map w_status (sent w).

(** The pairings of status and body the helpers produce: 200 and 201 with
    [res.json], 204 and 404 with [res.end], 500 with [res.send]. *)
Definition status_fits_payload (wr : write) : bool :=
  match w_status wr, w_payload wr with
  | 200, Json _ | 201, Json _ => true
  | 204, NoBody | 404, NoBody => true
  | 500, Sent _ => true
  | _, _ => false
  end.

(** The handlers whose chain ends in a response on every path. *)
Definition always_answering {store} `{DataAccess store} : list (@handler store) :=
  [index; show; create; destroy].

(** The handlers that fetch by id before they act. *)
Definition fetching {store} `{DataAccess store} `{JsonPatch} : list (@handler store) :=
  [show; patch; destroy].

(** ** The handlers over the response object of Express *)

Module Express.

(** A response object serves one request, so here [sent] holds what this
    request has written and the handlers are run from [arrival]. Once the
    response has ended its headers are sent: [res.json] and [res.send] set
    headers first, which then throws; [res.end] on an ended response does
    nothing; [res.status] only assigns [res.statusCode]. *)

Definition ERR_HTTP_HEADERS_SENT : value :=
  VError "Error" "Can't set headers after they are sent.".

Definition headersSent {store} (w : world store) : bool :=
  match sent w with
  | [] => false
  | _ :: _ => true
  end.

Section Controller.
Context {store : Type} `{DA : DataAccess store} `{JP : JsonPatch}.

Abbreviation world := (world store).

Definition res_json (v : value) (w : world) : completion world :=
  if headersSent w then Throw ERR_HTTP_HEADERS_SENT else Normal (res_write (Json v) w).

Definition res_send (v : value) (w : world) : completion world :=
  if headersSent w then Throw ERR_HTTP_HEADERS_SENT else Normal (res_write (Sent v) w).

Definition res_end (w : world) : world :=
  if headersSent w then w else res_write NoBody w.

(** A callback that ends in a call of [res]: what the call throws rejects
    the promise the callback belongs to. *)
Definition ending (result : value) (c : completion world) (w : world) : settled value * world :=
  match c with
  | Normal w' => (Resolved result, w')
  | Throw err => (Rejected err, w)
  end.

(** [if(entity) { return res.status(statusCode).json(entity); } return null;] *)
Definition respondWithResult (statusCode : option Z) : callback :=
  let statusCode := or_default statusCode 200 in
  fun entity w =>
    if truthy entity
    then ending VRes (res_json entity (res_status statusCode w)) (res_status statusCode w)
    else (Resolved VNull, w).

(** [if(entity) { return entity.destroy().then(() => { res.status(204).end(); }); }] *)
Definition removeEntity : callback :=
  fun entity w =>
    if truthy entity
    then then_ (method_destroy entity)
               (fun _ w' => (Resolved VUndefined, res_end (res_status 204 w'))) w
    else (Resolved VUndefined, w).

(** [if(!entity) { res.status(404).end(); return null; } return entity;] *)
Definition handleEntityNotFound : callback :=
  fun entity w =>
    if negb (truthy entity)
    then (Resolved VNull, res_end (res_status 404 w))
    else (Resolved entity, w).

(** [res.status(statusCode).send(err);] *)
Definition handleError (statusCode : option Z) : callback :=
  let statusCode := or_default statusCode 500 in
  fun err w =>
    ending VUndefined (res_send err (res_status statusCode w)) (res_status statusCode w).

(* Gets a list of Properties *)
Definition index : handler :=
  fun req =>
    returned
      (catch_ (then_ call_findAll (respondWithResult None)) (handleError None)).

(* Gets a single Property from the DB *)
Definition show : handler :=
  fun req =>
    returned
      (catch_
         (then_ (then_ (call_find (params_id req)) handleEntityNotFound)
                (respondWithResult None))
         (handleError None)).

(* Creates a new Property in the DB *)
Definition create : handler :=
  fun req =>
    returned
      (catch_ (then_ (call_create (body req)) (respondWithResult (Some 201)))
              (handleError None)).

(* Upserts the given Property in the DB at the specified ID *)
Definition upsert : handler :=
  fun req w =>
    match strip_id (body req) with
    | Throw e => (Throw e, w)
    | Normal body' =>
        returned
          (catch_ (then_ (call_upsert body' (params_id req)) (respondWithResult None))
                  (handleError None)) w
    end.

(* Updates an existing Property in the DB *)
Definition patch : handler :=
  fun req w =>
    match strip_id (body req) with
    | Throw e => (Throw e, w)
    | Normal body' =>
        returned
          (catch_
             (then_ (then_ (then_ (call_find (params_id req)) handleEntityNotFound)
                           (patchUpdates body'))
                    (respondWithResult None))
             (handleError None)) w
    end.

(* Deletes a Property from the DB *)
Definition destroy : handler :=
  fun req =>
    returned
      (catch_
         (then_ (then_ (call_find (params_id req)) handleEntityNotFound) removeEntity)
         (handleError None)).

Definition handlers : list handler := [index; show; create; upsert; patch; destroy].

End Controller.

End Express.

(** ** An in-memory Property table *)

Module MemStore.

(** Modelled from the spec: the [../../sqldb] module that defines [Property]
    is not part of the controller. The table follows the capability set of
    the data-access collaborator: [findAll], [find] by id, [create] with a
    generated id, [upsert] keyed by the given id, and the instance methods
    [save] and [destroy]. Ids are the strings the router passes as
    [req.params.id]. While [fault] is set the connection is down and every
    call rejects with that error. *)
Record t : Type := Mem {
  rows : gmap string entity;
  next_id : N;
  fault : option value
}.

Definition empty : t := Mem ∅ 1%N None.

Definition members_of (body : json) : list (string * json) :=
  match body with
  | JObj members => members
  | _ => []
  end.

Definition primary_key (e : entity) : option string :=
  match get_field "id" e with
  | Some (JStr k) => Some k
  | _ => None
  end.

Definition connected {A} (m : t) (k : settled A * t) : settled A * t :=
  match fault m with
  | Some e => (Rejected e, m)
  | None => k
  end.

Definition findAll (m : t) : settled (list entity) * t :=
  connected m (Resolved (map snd (map_to_list (rows m))), m).

Definition find (id : string) (m : t) : settled (option entity) * t :=
  connected m (Resolved (rows m !! id), m).

Definition create (body : json) (m : t) : settled entity * t :=
  let id := pretty (next_id m) in
  let e := set_field "id" (JStr id) (members_of body) in
  connected m (Resolved e, Mem (<[id := e]> (rows m)) (N.succ (next_id m)) (fault m)).

Definition upsert (body : json) (id : string) (m : t) : settled value * t :=
  let e := set_field "id" (JStr id) (members_of body) in
  connected m (Resolved (VInstance e), Mem (<[id := e]> (rows m)) (next_id m) (fault m)).

Definition no_key : value := VError "Error" "instance has no primary key".

Definition save (e : entity) (m : t) : settled entity * t :=
  connected m
    match primary_key e with
    | Some k => (Resolved e, Mem (<[k := e]> (rows m)) (next_id m) (fault m))
    | None => (Rejected no_key, m)
    end.

Definition destroy (e : entity) (m : t) : settled unit * t :=
  connected m
    match primary_key e with
    | Some k => (Resolved (), Mem (delete k (rows m)) (next_id m) (fault m))
    | None => (Rejected no_key, m)
    end.

#[global] Instance data_access : DataAccess t := {
  Property_findAll := findAll;
  Property_find := find;
  Property_create := create;
  Property_upsert := upsert;
  entity_save := save;
  entity_destroy := destroy
}.

End MemStore.

(** ** JSON Patch on flat documents *)

Module FlatPatch.

(** An instance of [JsonPatch] to run the handlers on sample data. It is not
    a translation of fast-json-patch: it covers the operations [add],
    [remove], [replace] and [test] of RFC 6902 on the top-level members of a
    document, and answers with an error of its own for everything else
    (other operations, longer paths, a body that is not an array). No
    theorem about the controller depends on it; each one holds for every
    [JsonPatch]. *)

Fixpoint json_eqb (a b : json) {struct a} : bool :=
  match a, b with
  | JNull, JNull => true
  | JBool x, JBool y => Bool.eqb x y
  | JNum x, JNum y => PrimFloat.eqb x y
  | JStr x, JStr y => String.eqb x y
  | JArr xs, JArr ys =>
      (fix all2 (xs ys : list json) {struct xs} : bool :=
         match xs, ys with
         | [], [] => true
         | x :: xs', y :: ys' => json_eqb x y && all2 xs' ys'
         | _, _ => false
         end) xs ys
  | JObj xs, JObj ys =>
      (length xs =? length ys)%nat &&
      (fix all (xs : list (string * json)) {struct xs} : bool :=
         match xs with
         | [] => true
         | (k, x) :: xs' =>
             match get_field k ys with
             | Some y => json_eqb x y
             | None => false
             end && all xs'
         end) xs
  | _, _ => false
  end.

Fixpoint has_slash (s : string) : bool :=
  match s with
  | EmptyString => false
  | String c rest => Ascii.eqb c "/"%char || has_slash rest
  end.

Definition path_key (path : string) : option string :=
  match path with
  | String c k => if Ascii.eqb c "/"%char && negb (has_slash k) then Some k else None
  | EmptyString => None
  end.

Definition JsonPatchError (name : string) : value := VError "JsonPatchError" name.

Definition apply_operation (doc : entity) (operation : json) : value + entity :=
  match operation with
  | JObj m =>
      match get_field "op" m, get_field "path" m with
      | Some (JStr op), Some (JStr path) =>
          match path_key path with
          | None => inl (JsonPatchError "OPERATION_PATH_UNRESOLVABLE")
          | Some k =>
              if String.eqb op "add" then
                match get_field "value" m with
                | Some v => inr (set_field k v doc)
                | None => inl (JsonPatchError "OPERATION_VALUE_REQUIRED")
                end
              else if String.eqb op "replace" then
                match get_field "value" m, get_field k doc with
                | None, _ => inl (JsonPatchError "OPERATION_VALUE_REQUIRED")
                | Some _, None => inl (JsonPatchError "OPERATION_PATH_UNRESOLVABLE")
                | Some v, Some _ => inr (set_field k v doc)
                end
              else if String.eqb op "remove" then
                match get_field k doc with
                | None => inl (JsonPatchError "OPERATION_PATH_UNRESOLVABLE")
                | Some _ => inr (delete_field k doc)
                end
              else if String.eqb op "test" then
                match get_field "value" m, get_field k doc with
                | None, _ => inl (JsonPatchError "OPERATION_VALUE_REQUIRED")
                | Some _, None => inl (JsonPatchError "OPERATION_PATH_UNRESOLVABLE")
                | Some v, Some x =>
                    if json_eqb x v then inr doc
                    else inl (JsonPatchError "TEST_OPERATION_FAILED")
                end
              else inl (JsonPatchError "OPERATION_OP_INVALID")
          end
      | Some (JStr _), _ => inl (JsonPatchError "OPERATION_PATH_INVALID")
      | _, _ => inl (JsonPatchError "OPERATION_OP_INVALID")
      end
  | _ => inl (JsonPatchError "OPERATION_NOT_AN_OBJECT")
  end.

Fixpoint apply_operations (doc : entity) (operations : list json) : value + entity :=
  match operations with
  | [] => inr doc
  | operation :: rest =>
      match apply_operation doc operation with
      | inl err => inl err
      | inr doc' => apply_operations doc' rest
      end
  end.

Definition apply (document : value) (patches : json) (validate : bool) : patch_result :=
  match patches with
  | JArr operations =>
      match document with
      | VInstance e =>
          match apply_operations e operations with
          | inl err => PatchThrows err
          | inr e' => Mutated e'
          end
      | _ =>
          match operations with
          | [] => Mutated []
          | _ :: _ => PatchThrows (TypeError "Cannot read property of null")
          end
      end
  | _ => PatchThrows (JsonPatchError "SEQUENCE_NOT_AN_ARRAY")
  end.

#[global] Instance json_patch : JsonPatch := {
  jsonpatch_apply := apply
}.

End FlatPatch.

(** ** Sample data *)

Module Fixtures.

Definition house : entity := [("id", JStr "7"); ("name", JStr "A")].

(** One Property, stored under id 7. *)
Definition table : MemStore.t := MemStore.Mem {["7" := house]} 8%N None.

Definition connection_refused : value := VError "SequelizeConnectionError" "connection refused".

(** The same table behind a connection that is down. *)
Definition offline : MemStore.t := MemStore.Mem {["7" := house]} 8%N (Some connection_refused).

Definition operation (op path : string) (v : json) : json :=
  JObj [("op", JStr op); ("path", JStr path); ("value", v)].

(** [[{op:"replace", path:"/name", value:"X"}]] *)
Definition rename : json := JArr [operation "replace" "/name" (JStr "X")].

(** A replace followed by a test that does not hold. *)
Definition rename_then_failing_test : json :=
  JArr [operation "replace" "/name" (JStr "X"); operation "test" "/name" (JStr "B")].

(** [[{op:"remove", path:"/id"}]]: the patched instance has no key to save under. *)
Definition drop_key : json := JArr [JObj [("op", JStr "remove"); ("path", JStr "/id")]].

(** A body whose [id] is the number zero. *)
Definition zero_id_body : json := JObj [("id", JNum 0); ("name", JStr "X")].

(** What [house] is after [rename]. *)
Definition renamed : entity := [("id", JStr "7"); ("name", JStr "X")].

(** A body whose [id] is a non-empty string. *)
Definition other_id_body : json := JObj [("id", JStr "99"); ("name", JStr "X")].

End Fixtures.

(** * Properties *)

(** ** Attribute lists *)

Lemma get_field_delete_field (k : string) (fs : list (string * json)) :
  get_field k (delete_field k fs) = None.
Proof.
  induction fs as [|[k' v] fs IH]; simpl; [done|].
  destruct (String.eqb k k') eqn:E; simpl; [done|].
  by rewrite E.
Qed.

Lemma get_field_delete_field_ne (k k' : string) (fs : list (string * json)) :
  k ≠ k' → get_field k' (delete_field k fs) = get_field k' fs.
Proof.
  intros Hne. induction fs as [|[k0 v] fs IH]; simpl; [done|].
  destruct (String.eqb k k0) eqn:E; simpl.
  - apply String.eqb_eq in E. subst k0.
    destruct (String.eqb k' k) eqn:E'; [|done].
    apply String.eqb_eq in E'. congruence.
  - by rewrite IH.
Qed.

(** ** The prologue of upsert and patch *)

Lemma strip_id_array (items : list json) : strip_id (JArr items) = Normal (JArr items).
Proof. reflexivity. Qed.

Lemma strip_id_truthy (members : list (string * json)) :
  member_truthy (get_field "id" members) = true →
  strip_id (JObj members) = Normal (JObj (delete_field "id" members)).
Proof. intros H. unfold strip_id. simpl. by rewrite H. Qed.

Lemma strip_id_falsy (members : list (string * json)) :
  member_truthy (get_field "id" members) = false →
  strip_id (JObj members) = Normal (JObj members).
Proof. intros H. unfold strip_id. simpl. by rewrite H. Qed.

Lemma strip_id_stripped (members : list (string * json)) :
  strip_id (JObj (delete_field "id" members)) = Normal (JObj (delete_field "id" members)).
Proof. apply strip_id_falsy. by rewrite get_field_delete_field. Qed.

(** ** Running a chain by cases on what the collaborators answer *)

Ltac unfold_chain :=
  unfold index, show, create, upsert, patch, destroy,
    patchUpdates, removeEntity, handleEntityNotFound, respondWithResult, handleError,
    returned, catch_, then_, call_jsonpatch,
    call_findAll, call_find, call_create, call_upsert,
    method_save, method_destroy, record,
    res_json, res_send, res_end, res_write, res_status in *.

Ltac settle_in H :=
  repeat
    (simpl in H;
     match type of H with
     | context [strip_id ?b] => destruct (strip_id b) as [?|?] eqn:?
     | context [Property_findAll ?d] => destruct (Property_findAll d) as [[?|?] ?] eqn:?
     | context [Property_find ?i ?d] => destruct (Property_find i d) as [[[?|]|?] ?] eqn:?
     | context [Property_create ?b ?d] => destruct (Property_create b d) as [[?|?] ?] eqn:?
     | context [Property_upsert ?b ?i ?d] =>
         destruct (Property_upsert b i d) as [[?|?] ?] eqn:?
     | context [jsonpatch_apply ?v ?p ?b] => destruct (jsonpatch_apply v p b) as [?|?] eqn:?
     | context [entity_save ?e ?d] => destruct (entity_save e d) as [[?|?] ?] eqn:?
     | context [entity_destroy ?e ?d] => destruct (entity_destroy e d) as [[?|?] ?] eqn:?
     | context [truthy ?v] => destruct (truthy v) eqn:?
     end).

Ltac pick_event H :=
  repeat (apply elem_of_cons in H as [H|H]; [inversion H; subst; clear H|]);
  try (apply elem_of_nil in H; destruct H).

Section ControllerFacts.
Context {store : Type} `{DA : DataAccess store} `{JP : JsonPatch}.
Implicit Types (w : world store) (d : store) (e : entity) (id : string).

(** ** One step of a chain *)

Lemma call_findAll_settles w r d :
  Property_findAll (db w) = (r, d) →
  call_findAll w =
    (settled_map VArray r,
     World d (trace w ++ [Event FindAll (settled_error r)]) (statusCode w) (sent w)).
Proof. intros H. unfold call_findAll, record. by rewrite H. Qed.

Lemma call_find_settles id w r d :
  Property_find id (db w) = (r, d) →
  call_find id w =
    (settled_map of_found r,
     World d (trace w ++ [Event (Find id) (settled_error r)]) (statusCode w) (sent w)).
Proof. intros H. unfold call_find, record. by rewrite H. Qed.

Lemma call_create_settles b w r d :
  Property_create b (db w) = (r, d) →
  call_create b w =
    (settled_map VInstance r,
     World d (trace w ++ [Event (Create b) (settled_error r)]) (statusCode w) (sent w)).
Proof. intros H. unfold call_create, record. by rewrite H. Qed.

Lemma call_upsert_settles b id w r d :
  Property_upsert b id (db w) = (r, d) →
  call_upsert b id w =
    (r, World d (trace w ++ [Event (Upsert b id) (settled_error r)]) (statusCode w) (sent w)).
Proof. intros H. unfold call_upsert, record. rewrite H. by destruct r. Qed.

Lemma method_save_settles e w r d :
  entity_save e (db w) = (r, d) →
  method_save (VInstance e) w =
    (settled_map VInstance r,
     World d (trace w ++ [Event (Save e) (settled_error r)]) (statusCode w) (sent w)).
Proof. intros H. unfold method_save, record. by rewrite H. Qed.

Lemma method_destroy_settles e w r d :
  entity_destroy e (db w) = (r, d) →
  method_destroy (VInstance e) w =
    (settled_map (fun _ => VUndefined) r,
     World d (trace w ++ [Event (Destroy e) (settled_error r)]) (statusCode w) (sent w)).
Proof. intros H. unfold method_destroy, record. by rewrite H. Qed.

(** ** handleEntityNotFound *)

(** C7. Applied to an absent (null) entity, handleEntityNotFound writes 404
    with an empty body and returns null; applied to a present entity it
    writes nothing and returns the entity unchanged. *)
Theorem handleEntityNotFound_null_or_entity w e :
  handleEntityNotFound VNull w =
    (Resolved VNull, World (db w) (trace w) 404 (sent w ++ [Write 404 NoBody]))
  ∧ handleEntityNotFound (VInstance e) w = (Resolved (VInstance e), w).
Proof. split; reflexivity. Qed.

(** ** show *)

(** C3. When the store holds an entity under the id, show responds 200 with
    that entity as the body; when it holds none, show responds 404 with an
    empty body. In both cases that is the only response. *)
Theorem show_found_or_not_found id b w found d :
  Property_find id (db w) = (Resolved found, d) →
  show (Request id b) w =
    match found with
    | Some e =>
        (Normal (Resolved VRes),
         World d (trace w ++ [Event (Find id) None]) 200
               (sent w ++ [Write 200 (Json (VInstance e))]))
    | None =>
        (Normal (Resolved VNull),
         World d (trace w ++ [Event (Find id) None]) 404
               (sent w ++ [Write 404 NoBody]))
    end.
Proof.
  intros Hfind. unfold show, returned, catch_, then_. simpl.
  rewrite (call_find_settles _ _ _ _ Hfind). by destruct found.
Qed.

(** ** create *)

(** C6. create hands the request body to the store as it is, and when the
    insert resolves with the created entity it responds 201 with that
    entity. *)
Theorem create_responds_201 id b w e d :
  Property_create b (db w) = (Resolved e, d) →
  create (Request id b) w =
    (Normal (Resolved VRes),
     World d (trace w ++ [Event (Create b) None]) 201
           (sent w ++ [Write 201 (Json (VInstance e))])).
Proof.
  intros Hcreate. unfold create, returned, catch_, then_. simpl.
  by rewrite (call_create_settles _ _ _ _ Hcreate).
Qed.

(** ** index *)

(** C10. Whatever array findAll resolves with, the empty one included, index
    responds 200 with it; and index never writes a 404, whether findAll
    resolves or rejects. *)
Theorem index_responds_200_with_any_array req w :
  truthy (VArray []) = true
  ∧ (∀ es d, Property_findAll (db w) = (Resolved es, d) →
       index req w =
         (Normal (Resolved VRes),
          World d (trace w ++ [Event FindAll None]) 200
                (sent w ++ [Write 200 (Json (VArray es))])))
  ∧ (∀ wr, wr ∈ sent (snd (index req w)) → wr ∈ sent w ∨ w_status wr ≠ 404).
Proof.
  split; [done|]. split.
  - intros es d Hall. unfold index, returned, catch_, then_.
    by rewrite (call_findAll_settles _ _ _ Hall).
  - intros wr. unfold index, returned, catch_, then_.
    destruct (Property_findAll (db w)) as [r d] eqn:Hall.
    rewrite (call_findAll_settles _ _ _ Hall).
    destruct r; simpl; rewrite elem_of_app, list_elem_of_singleton;
      intros [?| ->]; auto.
Qed.

(** ** destroy *)

(** C5. When the store holds the entity, destroy deletes it and responds 204
    with no body, and once the store no longer finds it a following show
    responds 404. When the store holds none, destroy responds 404, makes no
    delete call, and removeEntity on the absent entity writes nothing. *)
Theorem destroy_present_or_absent id b w :
  (∀ e d d', Property_find id (db w) = (Resolved (Some e), d) →
     entity_destroy e d = (Resolved (), d') →
     destroy (Request id b) w =
       (Normal (Resolved VUndefined),
        World d' (trace w ++ [Event (Find id) None; Event (Destroy e) None]) 204
              (sent w ++ [Write 204 NoBody]))
     ∧ ∀ b' d'', Property_find id d' = (Resolved None, d'') →
         sent (snd (show (Request id b') (arrival d'))) = [Write 404 NoBody])
  ∧ (∀ d, Property_find id (db w) = (Resolved None, d) →
       destroy (Request id b) w =
         (Normal (Resolved VUndefined),
          World d (trace w ++ [Event (Find id) None]) 404
                (sent w ++ [Write 404 NoBody])))
  ∧ removeEntity VNull w = (Resolved VUndefined, w).
Proof.
  split; [|split; [|reflexivity]].
  - intros e d d' Hfind Hdestroy. split.
    + unfold_chain. simpl. rewrite Hfind. simpl. rewrite Hdestroy. simpl.
      by rewrite <- app_assoc.
    + intros b' d'' Hgone. unfold show, returned, catch_, then_. simpl.
      by rewrite (call_find_settles id (arrival d') _ _ Hgone).
  - intros d Hfind. unfold destroy, returned, catch_, then_. simpl.
    by rewrite (call_find_settles _ _ _ _ Hfind).
Qed.

(** ** patch *)

(** C4. On an entity the store holds: when applying the operations throws,
    no save call is made, the store stays as the fetch left it and the
    response is 500 with the error; when they apply and the save resolves,
    the mutated entity has been saved and the response is 200 with it. *)
Theorem patch_fails_without_save_or_saves id b patches w e d :
  strip_id b = Normal patches →
  Property_find id (db w) = (Resolved (Some e), d) →
  (∀ err, jsonpatch_apply (VInstance e) patches true = PatchThrows err →
     patch (Request id b) w =
       (Normal (Resolved VUndefined),
        World d
          (trace w ++
             [Event (Find id) None;
              Event (JsonPatchApply (VInstance e) patches true) (Some err)])
          500
          (sent w ++ [Write 500 (Sent err)])))
  ∧ (∀ e' saved d', jsonpatch_apply (VInstance e) patches true = Mutated e' →
       entity_save e' d = (Resolved saved, d') →
       patch (Request id b) w =
         (Normal (Resolved VRes),
          World d'
            (trace w ++
               [Event (Find id) None;
                Event (JsonPatchApply (VInstance e) patches true) None;
                Event (Save e') None])
            200
            (sent w ++ [Write 200 (Json (VInstance saved))]))).
Proof.
  intros Hbody Hfind. split.
  - intros err Hthrow. unfold patch. cbn [body params_id]. rewrite Hbody. unfold_chain. simpl.
    rewrite Hfind. simpl. rewrite Hthrow. simpl. by rewrite <- app_assoc.
  - intros e' saved d' Hdone Hsave. unfold patch. cbn [body params_id]. rewrite Hbody. unfold_chain. simpl.
    rewrite Hfind. simpl. rewrite Hdone. simpl. rewrite Hsave. simpl.
    by rewrite <- !app_assoc.
Qed.

(** ** Rejections of the store *)

(** C8. In every operation, when a call to the store rejects with an error,
    the one response is 500 with that error as the body, and the rejected
    call is the last call the request makes: nothing is retried. *)
Theorem store_rejection_is_500 h req d r w' c err :
  h ∈ handlers → h req (arrival d) = (r, w') →
  Event c (Some err) ∈ trace w' → is_data_access c = true →
  r = Normal (Resolved VUndefined)
  ∧ sent w' = [Write 500 (Sent err)]
  ∧ last (trace w') = Some (Event c (Some err)).
Proof.
  intros Hh Hrun Hev Hda. unfold handlers in Hh.
  repeat (apply elem_of_cons in Hh as [->|Hh]); [..|by apply elem_of_nil in Hh].
  all: unfold_chain; settle_in Hrun.
  all: inversion Hrun; subst; clear Hrun; simpl in *.
  all: pick_event Hev; try discriminate; auto.
Qed.

(** ** The id member of the request body *)

(** C9. The prologue of upsert and patch removes the body's [id] exactly
    when its value is truthy. The number zero, the empty string and false
    are falsy; a body whose [id] is falsy reaches the store call of upsert,
    and the patcher in patch, with its [id] member still in it. *)
Theorem falsy_body_id_is_kept members id w :
  member_truthy (get_field "id" members) = false →
  Forall (fun v => json_truthy v = false) [JNum 0; JStr ""; JBool false]
  ∧ strip_id (JObj members) = Normal (JObj members)
  ∧ (∀ members', member_truthy (get_field "id" members') = true →
       strip_id (JObj members') = Normal (JObj (delete_field "id" members')))
  ∧ (∃ err, trace (snd (upsert (Request id (JObj members)) w))
        = trace w ++ [Event (Upsert (JObj members) id) err])
  ∧ (∀ found d, Property_find id (db w) = (Resolved found, d) →
       ∃ err rest, trace (snd (patch (Request id (JObj members)) w))
         = trace w ++ Event (Find id) None
             :: Event (JsonPatchApply (of_found found) (JObj members) true) err :: rest).
Proof.
  intros Hid. pose proof (strip_id_falsy _ Hid) as Hstrip.
  split; [by repeat constructor|].
  split; [done|]. split; [apply strip_id_truthy|]. split.
  - unfold upsert. simpl. rewrite Hstrip. unfold_chain. simpl.
    destruct (Property_upsert _ id (db w)) as [[v|err] d]; simpl.
    + destruct (truthy v); simpl; eauto.
    + eauto.
  - intros found d Hfind. unfold patch. simpl. rewrite Hstrip. unfold_chain. simpl.
    rewrite Hfind. destruct found as [e|]; simpl.
    + destruct (jsonpatch_apply _ _ true); simpl.
      * rewrite <- app_assoc. simpl. eauto.
      * destruct (entity_save _ d) as [[saved|err] d']; simpl;
          rewrite <- !app_assoc; simpl; eauto.
    + destruct (jsonpatch_apply _ _ true); simpl;
        rewrite <- app_assoc; simpl; eauto.
Qed.

End ControllerFacts.

(** ** The theorems at the sample data *)

Lemma show_found_or_not_found_witness :
  show (Request "7" (JObj [])) (arrival Fixtures.table) =
    (Normal (Resolved VRes),
     World Fixtures.table [Event (Find "7") None] 200
           [Write 200 (Json (VInstance Fixtures.house))])
  ∧ show (Request "9" (JObj [])) (arrival Fixtures.table) =
    (Normal (Resolved VNull),
     World Fixtures.table [Event (Find "9") None] 404 [Write 404 NoBody]).
Proof.
  split.
  - apply (show_found_or_not_found "7" (JObj []) (arrival Fixtures.table)
             (Some Fixtures.house) Fixtures.table).
    vm_compute. reflexivity.
  - apply (show_found_or_not_found "9" (JObj []) (arrival Fixtures.table)
             None Fixtures.table).
    vm_compute. reflexivity.
Defined.

Lemma create_responds_201_witness :
  sent (snd (create (Request "" (JObj [("name", JStr "B")])) (arrival Fixtures.table))) =
    [Write 201 (Json (VInstance [("name", JStr "B"); ("id", JStr "8")]))].
Proof.
  rewrite (create_responds_201 "" (JObj [("name", JStr "B")]) (arrival Fixtures.table)
             [("name", JStr "B"); ("id", JStr "8")]
             (MemStore.Mem
                (<["8" := [("name", JStr "B"); ("id", JStr "8")]]> {["7" := Fixtures.house]})
                9%N None)).
  - reflexivity.
  - vm_compute. reflexivity.
Defined.

Lemma index_responds_200_with_any_array_witness :
  index (Request "" (JObj [])) (arrival MemStore.empty) =
    (Normal (Resolved VRes),
     World MemStore.empty [Event FindAll None] 200 [Write 200 (Json (VArray []))]).
Proof.
  apply (index_responds_200_with_any_array (Request "" (JObj [])) (arrival MemStore.empty)).
  vm_compute. reflexivity.
Defined.

Lemma destroy_present_or_absent_witness :
  sent (snd (destroy (Request "7" (JObj [])) (arrival Fixtures.table))) = [Write 204 NoBody]
  ∧ sent (snd (show (Request "7" (JObj []))
                 (arrival (MemStore.Mem (delete "7" {["7" := Fixtures.house]}) 8%N None))))
      = [Write 404 NoBody]
  ∧ sent (snd (destroy (Request "9" (JObj [])) (arrival Fixtures.table))) = [Write 404 NoBody].
Proof.
  pose (gone := MemStore.Mem (delete "7" {["7" := Fixtures.house]}) 8%N None).
  destruct (destroy_present_or_absent "7" (JObj []) (arrival Fixtures.table))
    as [Hpresent _].
  destruct (Hpresent Fixtures.house Fixtures.table gone) as [Hdestroy Hshow];
    [vm_compute; reflexivity | vm_compute; reflexivity |].
  destruct (destroy_present_or_absent "9" (JObj []) (arrival Fixtures.table))
    as [_ [Habsent _]].
  split; [by rewrite Hdestroy|]. split.
  - apply (Hshow (JObj []) gone). vm_compute. reflexivity.
  - rewrite (Habsent Fixtures.table); [reflexivity | vm_compute; reflexivity].
Defined.

Lemma patch_fails_without_save_or_saves_witness :
  patch (Request "7" Fixtures.rename_then_failing_test) (arrival Fixtures.table) =
    (Normal (Resolved VUndefined),
     World Fixtures.table
       [Event (Find "7") None;
        Event (JsonPatchApply (VInstance Fixtures.house) Fixtures.rename_then_failing_test true)
              (Some (FlatPatch.JsonPatchError "TEST_OPERATION_FAILED"))]
       500
       [Write 500 (Sent (FlatPatch.JsonPatchError "TEST_OPERATION_FAILED"))])
  ∧ sent (snd (patch (Request "7" Fixtures.rename) (arrival Fixtures.table))) =
      [Write 200 (Json (VInstance Fixtures.renamed))]
  ∧ MemStore.rows (db (snd (patch (Request "7" Fixtures.rename) (arrival Fixtures.table))))
      !! "7" = Some Fixtures.renamed.
Proof.
  split.
  - apply (patch_fails_without_save_or_saves "7" Fixtures.rename_then_failing_test
             Fixtures.rename_then_failing_test (arrival Fixtures.table)
             Fixtures.house Fixtures.table);
      [reflexivity | vm_compute; reflexivity | vm_compute; reflexivity].
  - destruct (patch_fails_without_save_or_saves "7" Fixtures.rename Fixtures.rename
                (arrival Fixtures.table) Fixtures.house Fixtures.table)
      as [_ Hsaved]; [reflexivity | vm_compute; reflexivity |].
    rewrite (Hsaved Fixtures.renamed Fixtures.renamed
               (MemStore.Mem (<["7" := Fixtures.renamed]> {["7" := Fixtures.house]}) 8%N None));
      [split; vm_compute; reflexivity | vm_compute; reflexivity | vm_compute; reflexivity].
Defined.

Lemma store_rejection_is_500_witness :
  sent (snd (patch (Request "7" Fixtures.drop_key) (arrival Fixtures.table))) =
    [Write 500 (Sent MemStore.no_key)]
  ∧ sent (snd (index (Request "" (JObj [])) (arrival Fixtures.offline))) =
    [Write 500 (Sent Fixtures.connection_refused)].
Proof.
  split.
  - apply (store_rejection_is_500 patch (Request "7" Fixtures.drop_key) Fixtures.table
             (fst (patch (Request "7" Fixtures.drop_key) (arrival Fixtures.table)))
             (snd (patch (Request "7" Fixtures.drop_key) (arrival Fixtures.table)))
             (Save [("name", JStr "A")]) MemStore.no_key).
    + unfold handlers. repeat constructor.
    + apply surjective_pairing.
    + vm_compute. repeat constructor.
    + reflexivity.
  - apply (store_rejection_is_500 index (Request "" (JObj [])) Fixtures.offline
             (fst (index (Request "" (JObj [])) (arrival Fixtures.offline)))
             (snd (index (Request "" (JObj [])) (arrival Fixtures.offline)))
             FindAll Fixtures.connection_refused).
    + unfold handlers. repeat constructor.
    + apply surjective_pairing.
    + vm_compute. repeat constructor.
    + reflexivity.
Defined.

Lemma falsy_body_id_is_kept_witness :
  strip_id Fixtures.zero_id_body = Normal Fixtures.zero_id_body
  ∧ ∃ err, trace (snd (upsert (Request "7" Fixtures.zero_id_body) (arrival Fixtures.table)))
      = [Event (Upsert Fixtures.zero_id_body "7") err].
Proof.
  destruct (falsy_body_id_is_kept
              [("id", JNum 0); ("name", JStr "X")] "7" (arrival Fixtures.table))
    as (_ & Hkept & _ & Hupsert & _); [reflexivity|].
  split; [exact Hkept | exact Hupsert].
Defined.

(** ** A falsy id reaches the store *)


(** ** The handlers over the in-memory table *)

Section MemStoreFacts.
Implicit Types (m : MemStore.t) (e : entity) (id : string).

Lemma get_field_set_field (k : string) (v : json) (fs : list (string * json)) :
  get_field k (set_field k v fs) = Some v.
Proof.
  unfold set_field. destruct (get_field k fs) as [old|] eqn:Hold.
  - induction fs as [|[k' v'] fs IH]; simpl in *; [done|].
    destruct (String.eqb k k') eqn:E; simpl.
    + by rewrite String.eqb_refl.
    + rewrite E. by apply IH.
  - induction fs as [|[k' v'] fs IH]; simpl in *.
    + by rewrite String.eqb_refl.
    + destruct (String.eqb k k') eqn:E; [done|]. by apply IH.
Qed.

Lemma get_field_set_field_ne (k k' : string) (v : json) (fs : list (string * json)) :
  k ≠ k' → get_field k' (set_field k v fs) = get_field k' fs.
Proof.
  intros Hne. unfold set_field. destruct (get_field k fs) as [old|] eqn:Hold.
  - clear Hold. induction fs as [|[k0 v0] fs IH]; simpl; [done|].
    destruct (String.eqb k k0) eqn:E; simpl.
    + apply String.eqb_eq in E. subst k0.
      destruct (String.eqb k' k) eqn:E'; [|done].
      apply String.eqb_eq in E'. congruence.
    + by rewrite IH.
  - clear Hold. induction fs as [|[k0 v0] fs IH]; simpl.
    + destruct (String.eqb k' k) eqn:E'; [|done].
      apply String.eqb_eq in E'. congruence.
    + by rewrite IH.
Qed.

(** show answers with the row stored under the id, or with 404. *)
Lemma mem_show m id b :
  MemStore.fault m = None →
  sent (snd (show (Request id b) (arrival m))) =
    match MemStore.rows m !! id with
    | Some e => [Write 200 (Json (VInstance e))]
    | None => [Write 404 NoBody]
    end.
Proof.
  intros Hup. unfold_chain. simpl. unfold MemStore.find, MemStore.connected.
  rewrite Hup. by destruct (MemStore.rows m !! id).
Qed.

(** destroy removes the row, and a following show answers 404. *)
Lemma mem_destroy_then_show m id e b :
  MemStore.fault m = None →
  MemStore.rows m !! id = Some e →
  MemStore.primary_key e = Some id →
  let w' := snd (destroy (Request id b) (arrival m)) in
  sent w' = [Write 204 NoBody]
  ∧ MemStore.rows (db w') = delete id (MemStore.rows m)
  ∧ sent (snd (show (Request id b) (arrival (db w')))) = [Write 404 NoBody].
Proof.
  intros Hup Hrow Hkey.
  assert (Hrun : snd (destroy (Request id b) (arrival m)) =
    World (MemStore.Mem (delete id (MemStore.rows m)) (MemStore.next_id m) None)
          [Event (Find id) None; Event (Destroy e) None] 204 [Write 204 NoBody]).
  { unfold_chain. simpl. unfold MemStore.find, MemStore.destroy, MemStore.connected.
    rewrite Hup, Hrow. simpl. rewrite Hup, Hkey. reflexivity. }
  simpl. rewrite Hrun. split; [done|]. split; [done|].
  rewrite mem_show by done. simpl. by rewrite lookup_delete_eq.
Qed.

(** create answers 201 with the members of the body and a generated id. *)
Lemma mem_create m members :
  MemStore.fault m = None →
  ∃ e, sent (snd (create (Request "" (JObj members)) (arrival m)))
         = [Write 201 (Json (VInstance e))]
    ∧ get_field "id" e = Some (JStr (pretty (MemStore.next_id m)))
    ∧ (∀ k, k ≠ "id" → get_field k e = get_field k members)
    ∧ MemStore.rows (db (snd (create (Request "" (JObj members)) (arrival m))))
        !! pretty (MemStore.next_id m) = Some e.
Proof.
  intros Hup. eexists. unfold_chain. simpl.
  unfold MemStore.create, MemStore.connected. rewrite Hup. simpl.
  split; [reflexivity|]. split; [apply get_field_set_field|].
  split; [intros k Hk; by apply get_field_set_field_ne|].
  apply lookup_insert_eq.
Qed.

End MemStoreFacts.

(** * The handlers under every answer of the collaborators *)

(** Case analysis in the goal on what each collaborator call answers. *)
Ltac settle :=
  repeat
    (simpl;
     match goal with
     | |- context [strip_id ?b] => destruct (strip_id b) as [?|?] eqn:?
     | |- context [Property_findAll ?d] => destruct (Property_findAll d) as [[?|?] ?] eqn:?
     | |- context [Property_find ?i ?d] => destruct (Property_find i d) as [[[?|]|?] ?] eqn:?
     | |- context [Property_create ?b ?d] => destruct (Property_create b d) as [[?|?] ?] eqn:?
     | |- context [Property_upsert ?b ?i ?d] =>
         destruct (Property_upsert b i d) as [[?|?] ?] eqn:?
     | |- context [jsonpatch_apply ?v ?p ?b] => destruct (jsonpatch_apply v p b) as [?|?] eqn:?
     | |- context [entity_save ?e ?d] => destruct (entity_save e d) as [[?|?] ?] eqn:?
     | |- context [entity_destroy ?e ?d] => destruct (entity_destroy e d) as [[[]|?] ?] eqn:?
     | |- context [truthy ?v] => destruct (truthy v) eqn:?
     end);
  simpl.

Ltac by_handler H :=
  repeat (apply elem_of_cons in H as [->|H]); [..|by apply elem_of_nil in H].

Ltac pick_elem H :=
  repeat (apply elem_of_cons in H as [H|H]; [try (inversion H; subst; clear H)|]);
  try (apply elem_of_nil in H; destruct H).

Ltac among H :=
  repeat (apply elem_of_cons in H as [->|H]); try (by apply elem_of_nil in H).

Ltac open_up :=
  repeat match goal with
         | H : ∃ _, _ |- _ => destruct H as [? H]
         | H : _ ∧ _ |- _ => destruct H as [? H]
         end.

Lemma strip_id_throws_on_null (b : json) (e : value) :
  strip_id b = Throw e → b = JNull ∧ e = TypeError "Cannot read property 'id' of null".
Proof.
  destruct b as [| | | | |members]; try done.
  - by intros [= <-].
  - unfold strip_id. simpl. by destruct (member_truthy (get_field "id" members)).
Qed.

Section Coverage.
Context {store : Type} `{DA : DataAccess store} `{JP : JsonPatch}.
Implicit Types (w : world store) (d : store) (e : entity) (id : string).

(** ** How many responses *)

(** X1. index, show, create and destroy write exactly one response to every
    request, whatever the store answers. *)
Theorem one_response h req d :
  h ∈ always_answering →
  length (sent (snd (h req (arrival d)))) = 1%nat.
Proof.
  intros Hh. unfold always_answering in Hh.
  by_handler Hh; unfold_chain; settle; reflexivity.
Qed.

(** X2. upsert makes one Upsert call with the stripped body under the id
    path parameter. It answers 200 with what the call resolved when that is
    truthy, answers nothing at all when it is falsy, and answers 500 with
    the error when the call rejects. *)
Theorem upsert_answers_only_truthy id b body' w r d :
  strip_id b = Normal body' →
  Property_upsert body' id (db w) = (r, d) →
  upsert (Request id b) w =
    (Normal match r with
            | Resolved v => if truthy v then Resolved VRes else Resolved VNull
            | Rejected _ => Resolved VUndefined
            end,
     World d (trace w ++ [Event (Upsert body' id) (settled_error r)])
       match r with
       | Resolved v => if truthy v then 200 else statusCode w
       | Rejected _ => 500
       end
       (sent w ++
          match r with
          | Resolved v => if truthy v then [Write 200 (Json v)] else []
          | Rejected err => [Write 500 (Sent err)]
          end)).
Proof.
  intros Hbody Hup. unfold upsert. cbn [body params_id]. rewrite Hbody.
  unfold returned, catch_, then_. rewrite (call_upsert_settles _ _ _ _ _ Hup).
  destruct r as [v|err]; simpl.
  - unfold respondWithResult. destruct (truthy v); simpl; [done|].
    by rewrite app_nil_r.
  - done.
Qed.

(** ** Which responses *)

(** X4. The status codes each handler can write: index 200 or 500; show 200,
    404 or 500; create 201 or 500; upsert 200 or 500; patch 200, 404 or 500;
    destroy 204, 404 or 500. *)
Theorem response_statuses req d :
  statuses (snd (index req (arrival d))) ⊆ [200; 500]
  ∧ statuses (snd (show req (arrival d))) ⊆ [200; 404; 500]
  ∧ statuses (snd (create req (arrival d))) ⊆ [201; 500]
  ∧ statuses (snd (upsert req (arrival d))) ⊆ [200; 500]
  ∧ statuses (snd (patch req (arrival d))) ⊆ [200; 404; 500]
  ∧ statuses (snd (destroy req (arrival d))) ⊆ [204; 404; 500].
Proof.
  unfold statuses.
  repeat split; unfold_chain; settle; intros x Hx; simpl in Hx; among Hx;
    repeat constructor.
Qed.

(** X5. In every handler a 200 or 201 carries a JSON body, a 204 or 404
    carries no body, and a 500 carries what was passed to [res.send]. *)
Theorem status_and_payload h req d :
  h ∈ handlers →
  Forall (fun wr => status_fits_payload wr = true) (sent (snd (h req (arrival d)))).
Proof.
  intros Hh. unfold handlers in Hh.
  by_handler Hh; unfold_chain; settle; repeat constructor.
Qed.

(** ** Throwing before the chain is built *)

(** X7. A handler throws instead of returning a promise only in upsert and
    patch, only when the request body is null, and then with a TypeError,
    before any call or response. On a null body upsert and patch do throw. *)
Theorem throws_only_on_null_body h req w :
  h ∈ handlers →
  (∀ err, fst (h req w) = Throw err →
     body req = JNull ∧ (h = upsert ∨ h = patch) ∧ snd (h req w) = w
     ∧ ∃ message, err = TypeError message)
  ∧ (body req = JNull →
     ∃ message, upsert req w = (Throw (TypeError message), w)
                ∧ patch req w = (Throw (TypeError message), w)).
Proof.
  intros Hh. split.
  - intros err. unfold handlers in Hh.
    by_handler Hh; try (unfold_chain; settle; discriminate).
    + unfold upsert. destruct (strip_id (body req)) as [b'|e0] eqn:Hb.
      * unfold returned. by destruct (catch_ _ _ w).
      * apply strip_id_throws_on_null in Hb as [Hnull ->].
        simpl. intros [= <-]. eauto 6.
    + unfold patch. destruct (strip_id (body req)) as [b'|e0] eqn:Hb.
      * unfold returned. by destruct (catch_ _ _ w).
      * apply strip_id_throws_on_null in Hb as [Hnull ->].
        simpl. intros [= <-]. eauto 6.
  - intros Hnull. unfold upsert, patch. rewrite Hnull. simpl. eauto.
Qed.

(** ** When each status is written *)

(** X8. show, patch and destroy write a 404 exactly when the fetch resolves
    with no entity. *)
Theorem not_found_iff h id b d :
  h ∈ fetching → b ≠ JNull →
  404 ∈ statuses (snd (h (Request id b) (arrival d)))
  ↔ ∃ d', Property_find id d = (Resolved None, d').
Proof.
  intros Hh Hb. unfold statuses, fetching in *.
  by_handler Hh.
  2: { unfold patch. cbn [body params_id].
       destruct (strip_id b) as [patches|e0] eqn:Hbody;
         [|by apply strip_id_throws_on_null in Hbody as [? _]].
       unfold_chain; settle; simpl;
         (split; [intros Hin; pick_elem Hin; by eauto
                 | intros Hex; open_up; try congruence; by repeat constructor]). }
  all: unfold_chain; settle; simpl;
    (split; [intros Hin; pick_elem Hin; by eauto
            | intros Hex; open_up; try congruence; by repeat constructor]).
Qed.

(** X9. A success status is written exactly when every collaborator call of
    the operation succeeds: 200 by index when findAll resolves, 200 by show
    when the fetch resolves with an entity, 201 by create when the insert
    resolves, 204 by destroy when the fetch finds an entity and its delete
    resolves, 200 by patch when the fetch finds an entity, the operations
    apply to it and the save of the result resolves. *)
Theorem success_iff req d :
  (200 ∈ statuses (snd (index req (arrival d)))
     ↔ ∃ es d', Property_findAll d = (Resolved es, d'))
  ∧ (200 ∈ statuses (snd (show req (arrival d)))
     ↔ ∃ e d', Property_find (params_id req) d = (Resolved (Some e), d'))
  ∧ (201 ∈ statuses (snd (create req (arrival d)))
     ↔ ∃ e d', Property_create (body req) d = (Resolved e, d'))
  ∧ (204 ∈ statuses (snd (destroy req (arrival d)))
     ↔ ∃ e d' d'', Property_find (params_id req) d = (Resolved (Some e), d')
         ∧ entity_destroy e d' = (Resolved (), d''))
  ∧ (200 ∈ statuses (snd (patch req (arrival d)))
     ↔ ∃ patches e e' saved d' d'', strip_id (body req) = Normal patches
         ∧ Property_find (params_id req) d = (Resolved (Some e), d')
         ∧ jsonpatch_apply (VInstance e) patches true = Mutated e'
         ∧ entity_save e' d' = (Resolved saved, d'')).
Proof.
  unfold statuses.
  repeat match goal with |- _ ∧ _ => split end.
  all: unfold_chain; settle; simpl.
  all: split;
    [ intros Hin; pick_elem Hin; by eauto 12
    | intros Hex; open_up; simplify_eq; try congruence; simpl; by repeat constructor ].
Qed.

(** X10. A 500 carries the error raised by the last collaborator call of the
    request; the one exception is a TypeError in patch, after a fetch that
    resolved with no entity. *)
Theorem status_500_carries_the_error h req d p :
  h ∈ handlers →
  Write 500 p ∈ sent (snd (h req (arrival d))) →
  (∃ c err, p = Sent err
     ∧ last (trace (snd (h req (arrival d)))) = Some (Event c (Some err)))
  ∨ ((∃ message, p = Sent (TypeError message))
     ∧ h = patch
     ∧ ∃ d', Property_find (params_id req) d = (Resolved None, d')).
Proof.
  intros Hh. unfold handlers in Hh.
  by_handler Hh; unfold_chain; settle; intros Hin; pick_elem Hin; eauto 10.
Qed.

(** ** Which calls *)

(** X11. index makes the one call findAll, show the one call find under the
    id path parameter, create the one call create with the request body as
    it came; none of them makes a second call, whether the first resolves
    or rejects. *)
Theorem one_store_call req d :
  trace (snd (index req (arrival d)))
    = [Event FindAll (settled_error (fst (Property_findAll d)))]
  ∧ trace (snd (show req (arrival d)))
    = [Event (Find (params_id req)) (settled_error (fst (Property_find (params_id req) d)))]
  ∧ trace (snd (create req (arrival d)))
    = [Event (Create (body req)) (settled_error (fst (Property_create (body req) d)))].
Proof. repeat split; unfold_chain; settle; reflexivity. Qed.

(** X12. Apart from the fetch under the id path parameter, destroy calls
    only the delete of the entity the fetch found; patch calls only the
    patcher, with validation on, on what the fetch resolved and the stripped
    body, and the save of what the patcher made of the entity found. *)
Theorem writes_follow_the_fetch id b d :
  (∀ ev, ev ∈ trace (snd (destroy (Request id b) (arrival d))) →
     ev_call ev = Find id
     ∨ ∃ e d', Property_find id d = (Resolved (Some e), d') ∧ ev_call ev = Destroy e)
  ∧ (∀ ev, ev ∈ trace (snd (patch (Request id b) (arrival d))) →
     ev_call ev = Find id
     ∨ (∃ found d' patches,
          Property_find id d = (Resolved found, d')
          ∧ strip_id b = Normal patches
          ∧ ev_call ev = JsonPatchApply (of_found found) patches true)
     ∨ (∃ e e' d' patches,
          Property_find id d = (Resolved (Some e), d')
          ∧ strip_id b = Normal patches
          ∧ jsonpatch_apply (VInstance e) patches true = Mutated e'
          ∧ ev_call ev = Save e')).
Proof.
  split; intros ev; unfold_chain; settle; intros Hin; among Hin; simpl; eauto 12.
Qed.

(** ** The prologue of upsert and patch, on every body *)

(** X13. After the prologue the body has no truthy [id]; a second run of the
    prologue changes nothing; a body that is not an object comes out as it
    went in; and upsert and patch handle a request exactly as they handle
    the request with the stripped body. *)
Theorem prologue_leaves_no_truthy_id b b' :
  strip_id b = Normal b' →
  (∃ m, body_id b' = Normal m ∧ member_truthy m = false)
  ∧ strip_id b' = Normal b'
  ∧ match b with JObj _ => True | _ => b' = b end
  ∧ ∀ id w, upsert (Request id b) w = upsert (Request id b') w
            ∧ patch (Request id b) w = patch (Request id b') w.
Proof.
  intros Hstrip.
  assert (Hagain : strip_id b' = Normal b').
  { destruct b as [| | | | |members]; try (by inversion Hstrip).
    unfold strip_id in Hstrip. simpl in Hstrip.
    destruct (member_truthy (get_field "id" members)) eqn:Hid; inversion Hstrip.
    - apply strip_id_stripped.
    - by apply strip_id_falsy. }
  split; [|split; [done|split]].
  - destruct b as [| | | | |members]; inversion Hstrip; subst; simpl; eauto.
    unfold strip_id in Hstrip. simpl in Hstrip.
    destruct (member_truthy (get_field "id" members)) eqn:Hid; inversion Hstrip; simpl.
    + rewrite get_field_delete_field. eauto.
    + eauto.
  - destruct b; try done; by inversion Hstrip.
  - intros id w. unfold upsert, patch. cbn [body params_id].
    by rewrite Hstrip, Hagain.
Qed.

End Coverage.

(** ** At the sample data *)

Lemma one_response_witness :
  length (sent (snd (destroy (Request "9" (JObj [])) (arrival Fixtures.table)))) = 1%nat.
Proof.
  apply (one_response destroy (Request "9" (JObj [])) Fixtures.table).
  unfold always_answering. repeat constructor.
Defined.

Lemma upsert_answers_only_truthy_witness :
  sent (snd (upsert (Request "7" Fixtures.other_id_body) (arrival Fixtures.table)))
    = [Write 200 (Json (VInstance [("name", JStr "X"); ("id", JStr "7")]))].
Proof.
  rewrite (upsert_answers_only_truthy "7" Fixtures.other_id_body
             (JObj [("name", JStr "X")]) (arrival Fixtures.table)
             (Resolved (VInstance [("name", JStr "X"); ("id", JStr "7")]))
             (MemStore.Mem
                (<["7" := [("name", JStr "X"); ("id", JStr "7")]]> {["7" := Fixtures.house]})
                8%N None));
    [reflexivity | reflexivity | vm_compute; reflexivity].
Defined.

Lemma status_and_payload_witness :
  Forall (fun wr => status_fits_payload wr = true)
    (sent (snd (patch (Request "9" Fixtures.rename) (arrival Fixtures.table)))).
Proof.
  apply (status_and_payload patch (Request "9" Fixtures.rename) Fixtures.table).
  unfold handlers. repeat constructor.
Defined.

Lemma throws_only_on_null_body_witness :
  snd (upsert (Request "7" JNull) (arrival Fixtures.table)) = arrival Fixtures.table
  ∧ ∃ message, upsert (Request "7" JNull) (arrival Fixtures.table)
                 = (Throw (TypeError message), arrival Fixtures.table)
               ∧ patch (Request "7" JNull) (arrival Fixtures.table)
                 = (Throw (TypeError message), arrival Fixtures.table).
Proof.
  destruct (throws_only_on_null_body upsert (Request "7" JNull) (arrival Fixtures.table))
    as [Honly Hnull]; [unfold handlers; repeat constructor|].
  split.
  - apply (Honly (TypeError "Cannot read property 'id' of null")). reflexivity.
  - apply Hnull. reflexivity.
Defined.

Lemma not_found_iff_witness :
  404 ∈ statuses (snd (destroy (Request "9" (JObj [])) (arrival Fixtures.table))).
Proof.
  apply (not_found_iff destroy "9" (JObj []) Fixtures.table).
  - unfold fetching. repeat constructor.
  - discriminate.
  - exists Fixtures.table. vm_compute. reflexivity.
Defined.

Lemma success_iff_witness :
  200 ∈ statuses (snd (patch (Request "7" Fixtures.rename) (arrival Fixtures.table))).
Proof.
  apply (success_iff (Request "7" Fixtures.rename) Fixtures.table).
  exists Fixtures.rename, Fixtures.house, Fixtures.renamed, Fixtures.renamed, Fixtures.table,
    (MemStore.Mem (<["7" := Fixtures.renamed]> {["7" := Fixtures.house]}) 8%N None).
  repeat split; vm_compute; reflexivity.
Defined.

Lemma status_500_carries_the_error_witness :
  (∃ c err, Sent MemStore.no_key = Sent err
     ∧ last (trace (snd (patch (Request "7" Fixtures.drop_key) (arrival Fixtures.table))))
       = Some (Event c (Some err)))
  ∨ ((∃ message, Sent MemStore.no_key = Sent (TypeError message))
     ∧ @patch MemStore.t _ _ = patch
     ∧ ∃ d', Property_find "7" Fixtures.table = (Resolved None, d')).
Proof.
  apply (status_500_carries_the_error patch (Request "7" Fixtures.drop_key) Fixtures.table).
  - unfold handlers. repeat constructor.
  - vm_compute. repeat constructor.
Defined.

Lemma writes_follow_the_fetch_witness :
  Destroy Fixtures.house = Find "7"
  ∨ ∃ e d', Property_find "7" Fixtures.table = (Resolved (Some e), d')
      ∧ Destroy Fixtures.house = Destroy e.
Proof.
  apply (proj1 (writes_follow_the_fetch "7" (JObj []) Fixtures.table)
           (Event (Destroy Fixtures.house) None)).
  vm_compute. repeat constructor.
Defined.

Lemma prologue_leaves_no_truthy_id_witness :
  strip_id (JObj [("name", JStr "X")]) = Normal (JObj [("name", JStr "X")])
  ∧ upsert (Request "7" Fixtures.other_id_body) (arrival Fixtures.table)
    = upsert (Request "7" (JObj [("name", JStr "X")])) (arrival Fixtures.table).
Proof.
  destruct (prologue_leaves_no_truthy_id Fixtures.other_id_body (JObj [("name", JStr "X")]))
    as (_ & Hagain & _ & Hsame); [reflexivity|].
  split; [exact Hagain | apply Hsame].
Defined.

(** * The handlers over the response object of Express *)

Ltac unfold_express :=
  unfold Express.index, Express.show, Express.create, Express.upsert, Express.patch,
    Express.destroy, Express.respondWithResult, Express.removeEntity,
    Express.handleEntityNotFound, Express.handleError, Express.ending,
    Express.res_json, Express.res_send, Express.res_end, Express.headersSent in *;
  unfold_chain.

Section OnExpress.
Context {store : Type} `{DA : DataAccess store} `{JP : JsonPatch}.
Implicit Types (w : world store) (d : store) (e : entity) (id : string).

(** The recorder and the response object of Express differ on one request
    only: on every request index, show, create, upsert and destroy run the
    same on both, and so does patch unless the fetch resolves with no
    entity. *)
Lemma express_agrees_but_for_absent_patch req d :
  Express.index req (arrival d) = index req (arrival d)
  ∧ Express.show req (arrival d) = show req (arrival d)
  ∧ Express.create req (arrival d) = create req (arrival d)
  ∧ Express.upsert req (arrival d) = upsert req (arrival d)
  ∧ Express.destroy req (arrival d) = destroy req (arrival d)
  ∧ ((∀ d', Property_find (params_id req) d ≠ (Resolved None, d')) →
     Express.patch req (arrival d) = patch req (arrival d)).
Proof.
  repeat match goal with |- _ ∧ _ => split end;
    try (unfold_express; settle; reflexivity).
  intros Hfound. unfold_express. settle; try reflexivity; by destruct (Hfound s).
Qed.

(** C1. On an id the store does not hold, patch ends the response with 404
    and an empty body, and then goes on where show and destroy stop:
    patchUpdates has no test of its entity, so jsonpatch.apply is called on
    null, the failure that follows reaches handleError, which sets the
    status to 500 and calls res.send on the ended response, and the promise
    patch returns rejects. No save call is made and the 404 stays the only
    response. *)
Theorem patch_absent_goes_on_after_404 id b patches d d' :
  strip_id b = Normal patches →
  Property_find id d = (Resolved None, d') →
  Express.patch (Request id b) (arrival d) =
    (Normal (Rejected Express.ERR_HTTP_HEADERS_SENT),
     World d'
       [Event (Find id) None;
        Event (JsonPatchApply VNull patches true)
              (patch_error (jsonpatch_apply VNull patches true))]
       500
       [Write 404 NoBody])
  ∧ Express.show (Request id b) (arrival d) =
    (Normal (Resolved VNull), World d' [Event (Find id) None] 404 [Write 404 NoBody])
  ∧ Express.destroy (Request id b) (arrival d) =
    (Normal (Resolved VUndefined), World d' [Event (Find id) None] 404 [Write 404 NoBody]).
Proof.
  intros Hbody Hfind. split; [|split].
  - unfold Express.patch. cbn [body params_id]. rewrite Hbody.
    unfold returned, catch_, then_.
    rewrite (call_find_settles id (arrival d) _ _ Hfind). simpl.
    unfold patchUpdates, call_jsonpatch. simpl.
    by destruct (jsonpatch_apply VNull patches true).
  - unfold Express.show, returned, catch_, then_. cbn [params_id].
    by rewrite (call_find_settles id (arrival d) _ _ Hfind).
  - unfold Express.destroy, returned, catch_, then_. cbn [params_id].
    by rewrite (call_find_settles id (arrival d) _ _ Hfind).
Qed.

(** X3. patch writes exactly one response to every request with a body that
    is not null: also when the fetch resolves with no entity, where the 500
    that handleError asks for after the 404 is refused. *)
Theorem patch_response_count id b patches d :
  strip_id b = Normal patches →
  length (sent (snd (Express.patch (Request id b) (arrival d)))) = 1%nat.
Proof.
  intros Hbody. unfold Express.patch. cbn [body params_id]. rewrite Hbody.
  unfold_express. settle; reflexivity.
Qed.

(** X14. The promise a handler returns rejects in one case only: in patch,
    when the fetch resolves with no entity, and then with the error of the
    refused write. Every other failure is caught by handleError and the
    promise resolves. *)
Theorem only_patch_rejects h req d :
  h ∈ Express.handlers →
  (∀ err, fst (h req (arrival d)) = Normal (Rejected err) →
     h = Express.patch
     ∧ err = Express.ERR_HTTP_HEADERS_SENT
     ∧ ∃ d', Property_find (params_id req) d = (Resolved None, d'))
  ∧ (∀ patches d', strip_id (body req) = Normal patches →
       Property_find (params_id req) d = (Resolved None, d') →
       fst (Express.patch req (arrival d)) = Normal (Rejected Express.ERR_HTTP_HEADERS_SENT)).
Proof.
  intros Hh. split.
  - intros err. unfold Express.handlers in Hh.
    by_handler Hh; unfold_express; settle; intros Hrej; try discriminate;
      inversion Hrej; eauto.
  - intros patches d' Hbody Hfind. unfold Express.patch. rewrite Hbody.
    unfold returned, catch_, then_.
    rewrite (call_find_settles (params_id req) (arrival d) _ _ Hfind). simpl.
    unfold patchUpdates, call_jsonpatch. simpl.
    by destruct (jsonpatch_apply VNull patches true).
Qed.

End OnExpress.

(** * The id of the request body and the id that is persisted *)



Lemma patch_absent_goes_on_after_404_witness :
  fst (Express.patch (Request "9" (JArr [])) (arrival Fixtures.table))
    = Normal (Rejected Express.ERR_HTTP_HEADERS_SENT)
  ∧ sent (snd (Express.patch (Request "9" (JArr [])) (arrival Fixtures.table)))
    = [Write 404 NoBody]
  ∧ fst (Express.show (Request "9" (JArr [])) (arrival Fixtures.table))
    = Normal (Resolved VNull).
Proof.
  destruct (patch_absent_goes_on_after_404 "9" (JArr []) (JArr [])
              Fixtures.table Fixtures.table)
    as (Hpatch & Hshow & _); [reflexivity | vm_compute; reflexivity |].
  rewrite Hpatch, Hshow. repeat split.
Defined.

Lemma patch_response_count_witness :
  length (sent (snd (Express.patch (Request "9" Fixtures.rename) (arrival Fixtures.table))))
    = 1%nat.
Proof.
  apply (patch_response_count "9" Fixtures.rename Fixtures.rename Fixtures.table).
  reflexivity.
Defined.

Lemma only_patch_rejects_witness :
  fst (Express.patch (Request "9" Fixtures.rename) (arrival Fixtures.table))
    = Normal (Rejected Express.ERR_HTTP_HEADERS_SENT).
Proof.
  destruct (only_patch_rejects Express.patch (Request "9" Fixtures.rename) Fixtures.table)
    as [_ Hrejects]; [unfold Express.handlers; repeat constructor|].
  apply (Hrejects Fixtures.rename Fixtures.table); [reflexivity | vm_compute; reflexivity].
Defined.
